(** * EC2 power-toggle Lambda: a shallow embedding of [backend/lambda.py]

    The handler reads an action out of the invocation event, talks to the
    EC2 and SNS clients, and answers with a small dictionary.  Python
    values are embedded as the inductive [pyval]; the two boto3 clients are
    an oracle over the history of calls made so far; exceptions are an
    explicit error component of the handler monad.

    A [str] is held as the bytes of its UTF-8 encoding; a surrogate code
    point, which a Python [str] can hold and UTF-8 proper refuses, as the
    three bytes [ED A0..BF 80..BF] the same scheme gives it. *)

From Stdlib Require Import String Ascii ZArith List Bool Lia.
From Stdlib Require Import DecimalString HexadecimalString.
From Stdlib Require Import PrimFloat.
From stdpp Require Import base option gmap strings.

Import ListNotations.
Local Open Scope string_scope.
Local Open Scope Z_scope.
Set Warnings "-register-all".

(** ** Python values *)

(** The values an event, a decoded JSON document or a boto3 response is made
    of.  Dictionaries have string keys, as every dictionary reaching this
    handler does (JSON objects, boto3 responses). *)
Inductive pyval : Type :=
  | PyNone
  | PyBool (b : bool)
  | PyInt (n : Z)
  | PyFloat (x : float)
  | PyStr (s : string)
  | PyList (items : list pyval)
  | PyDict (fields : gmap string pyval).

(** An instance of [Exception]: its class name and the text [str(e)]
    yields. *)
Record exn : Type := Exn { exn_class : string; exn_text : string }.

(** [bool(v)], Python's truth value. *)
Definition truthy (v : pyval) : bool :=
  match v with
  | PyNone => false
  | PyBool b => b
  | PyInt n => negb (n =? 0)
  | PyFloat x => negb (PrimFloat.eqb x 0%float)
  | PyStr s => negb (String.eqb s "")
  | PyList items => match items with [] => false | _ :: _ => true end
  | PyDict fields => negb (bool_decide (fields = ∅))
  end.

(** [type(v).__name__]. *)
Definition type_name (v : pyval) : string :=
  match v with
  | PyNone => "NoneType"
  | PyBool _ => "bool"
  | PyInt _ => "int"
  | PyFloat _ => "float"
  | PyStr _ => "str"
  | PyList _ => "list"
  | PyDict _ => "dict"
  end.

Definition AttributeError (v : pyval) (attr : string) : exn :=
  Exn "AttributeError"
      ("'" ++ type_name v ++ "' object has no attribute '" ++ attr ++ "'").

Definition KeyError (k : string) : exn := Exn "KeyError" ("'" ++ k ++ "'").

Definition IndexError (what : string) : exn :=
  Exn "IndexError" (what ++ " index out of range").

Definition TypeError (text : string) : exn := Exn "TypeError" text.

(** [v.get(k, default)]: only dictionaries have the method. *)
Definition py_get (v : pyval) (k : string) (dflt : pyval) : exn + pyval :=
  match v with
  | PyDict fields => inr (default dflt (fields !! k))
  | _ => inl (AttributeError v "get")
  end.

(** [v[k]] for a string key [k]. *)
Definition py_subscript_key (v : pyval) (k : string) : exn + pyval :=
  match v with
  | PyDict fields =>
      match fields !! k with
      | Some x => inr x
      | None => inl (KeyError k)
      end
  | PyList _ => inl (TypeError "list indices must be integers or slices, not str")
  | PyStr _ => inl (TypeError "string indices must be integers, not 'str'")
  | _ => inl (TypeError ("'" ++ type_name v ++ "' object is not subscriptable"))
  end.

(** A byte [10xxxxxx], which continues a code point. *)
Definition is_continuation (c : ascii) : bool :=
  let n := N_of_ascii c in ((128 <=? n) && (n <? 192))%N.

(** The continuation bytes a string starts with. *)
Fixpoint leading_continuation (s : string) : string :=
  match s with
  | String c rest =>
      if is_continuation c then String c (leading_continuation rest)
      else EmptyString
  | EmptyString => EmptyString
  end.

(** [v[0]]; on a [str], its first code point. *)
Definition py_subscript_0 (v : pyval) : exn + pyval :=
  match v with
  | PyList items =>
      match items with
      | x :: _ => inr x
      | [] => inl (IndexError "list")
      end
  | PyStr s =>
      match s with
      | String c rest => inr (PyStr (String c (leading_continuation rest)))
      | EmptyString => inl (IndexError "string")
      end
  | PyDict _ => inl (Exn "KeyError" "0")
  | _ => inl (TypeError ("'" ++ type_name v ++ "' object is not subscriptable"))
  end.

(** [v == s] for a string literal [s]: values of another type are never
    equal to a [str]. *)
Definition py_eq_str (v : pyval) (s : string) : bool :=
  match v with
  | PyStr t => String.eqb t s
  | _ => false
  end.

(** [a or b], on values already computed. *)
Definition py_or (a b : pyval) : pyval := if truthy a then a else b.

(** ** Case mapping on ASCII text

    On text that is all ASCII, [str.lower] and [str.upper] move the letters
    [A-Z] and [a-z] and nothing else. *)
Definition ascii_lower (c : ascii) : ascii :=
  let n := N_of_ascii c in
  if ((65 <=? n) && (n <=? 90))%N then ascii_of_N (n + 32) else c.

Definition ascii_upper (c : ascii) : ascii :=
  let n := N_of_ascii c in
  if ((97 <=? n) && (n <=? 122))%N then ascii_of_N (n - 32) else c.

Fixpoint lower_ascii (s : string) : string :=
  match s with
  | EmptyString => EmptyString
  | String c rest => String (ascii_lower c) (lower_ascii rest)
  end.

Fixpoint upper_ascii (s : string) : string :=
  match s with
  | EmptyString => EmptyString
  | String c rest => String (ascii_upper c) (upper_ascii rest)
  end.

Fixpoint is_ascii (s : string) : bool :=
  match s with
  | EmptyString => true
  | String c rest => (N_of_ascii c <? 128)%N && is_ascii rest
  end.

(** ** Writing to the log stream

    [print] writes to standard output, which the Lambda runtime opens as
    UTF-8 with the strict error handler: text goes out unless it holds a
    surrogate code point, and then [print] raises [UnicodeEncodeError]. *)

(** The surrogate code point a string starts with. *)
Definition surrogate_at (s : string) : option N :=
  match s with
  | String c1 rest =>
      if (N_of_ascii c1 =? 237)%N then
        match rest with
        | String c2 (String c3 _) =>
            let b2 := N_of_ascii c2 in
            if ((160 <=? b2) && (b2 <=? 191))%N && is_continuation c3
            then Some (55296 + (b2 - 160) * 64 + (N_of_ascii c3 - 128))%N
            else None
        | _ => None
        end
      else None
  | EmptyString => None
  end.

(** How many surrogate code points a string starts with. *)
Fixpoint surrogate_run (s : string) : N :=
  match surrogate_at s with
  | Some _ =>
      match s with
      | String _ (String _ (String _ rest)) => (1 + surrogate_run rest)%N
      | _ => 0%N
      end
  | None => 0%N
  end.

(** The first surrogate of a text whose first byte belongs to code point
    number [pos]: its position, the code point, and the length of the run of
    surrogates it opens. *)
Fixpoint first_surrogate (s : string) (pos : N) : option (N * N * N) :=
  match s with
  | EmptyString => None
  | String c rest =>
      match surrogate_at s with
      | Some cp => Some (pos, cp, surrogate_run s)
      | None =>
          first_surrogate rest (if is_continuation c then pos else pos + 1)%N
      end
  end.

Definition decimal (n : N) : string :=
  DecimalString.NilZero.string_of_uint (N.to_uint n).

Definition hexadecimal (n : N) : string :=
  HexadecimalString.NilZero.string_of_uint (N.to_hex_uint n).

(** The exception of the UTF-8 encoder for a run of [run] surrogates that
    starts with code point [cp] at position [pos]. *)
Definition UnicodeEncodeError (pos cp run : N) : exn :=
  Exn "UnicodeEncodeError"
    (if (run =? 1)%N
     then "'utf-8' codec can't encode character '\u" ++ hexadecimal cp
          ++ "' in position " ++ decimal pos ++ ": surrogates not allowed"
     else "'utf-8' codec can't encode characters in position " ++ decimal pos
          ++ "-" ++ decimal (pos + run - 1) ++ ": surrogates not allowed").

Definition encode_error (text : string) : option exn :=
  match first_surrogate text 0 with
  | Some (pos, cp, run) => Some (UnicodeEncodeError pos cp run)
  | None => None
  end.

(** [print(text)]. *)
Definition py_print (text : string) : exn + unit :=
  match encode_error text with
  | Some e => inl e
  | None => inr tt
  end.

(** The log stream takes the text. *)
Definition writable (text : string) : bool :=
  match encode_error text with
  | Some _ => false
  | None => true
  end.

(** ** The outside world *)

(** The calls the handler makes on its two boto3 clients.  [WaiterWait]
    stands for [ec2.get_waiter(name).wait(InstanceIds=ids,
    WaiterConfig={'Delay': delay, 'MaxAttempts': max_attempts})]. *)
Inductive call : Type :=
  | SnsPublish (TopicArn Message SMSType : string)
  | DescribeInstances (InstanceIds : list string)
  | StartInstances (InstanceIds : list string)
  | StopInstances (InstanceIds : list string)
  | WaiterWait (name : string) (InstanceIds : list string)
               (Delay MaxAttempts : Z).

(** What a call comes back with: a response, or a raised exception. *)
Definition outcome : Type := exn + pyval.

(** One line of the history: a call and how it ended. *)
Definition entry : Type := call * outcome.

(** The environment of an invocation: [respond] answers a call given
    everything that has happened before it, [json_loads] is the decoder
    [json.loads] applied to a [str], [unicode_lower] and [unicode_upper] are
    [str.lower] and [str.upper] on text that is not all ASCII, where they
    follow the case tables of the Unicode database. *)
Record World : Type := {
  respond : list entry -> call -> outcome;
  json_loads : string -> exn + pyval;
  unicode_lower : string -> string;
  unicode_upper : string -> string
}.

(** ** The handler monad: a history of calls, and exceptions *)

Definition M (A : Type) : Type := list entry -> (exn + A) * list entry.

Definition ret {A} (a : A) : M A := fun h => (inr a, h).

Definition raise {A} (e : exn) : M A := fun h => (inl e, h).

Definition bind {A B} (m : M A) (k : A -> M B) : M B :=
  fun h =>
    match m h with
    | (inr a, h') => k a h'
    | (inl e, h') => (inl e, h')
    end.

(** [try: m  except Exception as e: handler e]. *)
Definition try_except {A} (m : M A) (handler : exn -> M A) : M A :=
  fun h =>
    match m h with
    | (inr a, h') => (inr a, h')
    | (inl e, h') => handler e h'
    end.

(** A pure step that may raise. *)
Definition lift {A} (r : exn + A) : M A := fun h => (r, h).

Notation "'let*' x ':=' m 'in' k" := (bind m (fun x => k))
  (at level 10, x name, m at level 100, k at level 200, only parsing).
Notation "m ';;' k" := (bind m (fun _ => k))
  (at level 100, k at level 200, right associativity, only parsing).

(** Bind of the exception-only fragment, for code that makes no calls. *)
Definition bind_exn {A B} (r : exn + A) (k : A -> exn + B) : exn + B :=
  match r with
  | inr a => k a
  | inl e => inl e
  end.

Notation "'try*' x ':=' r 'in' k" := (bind_exn r (fun x => k))
  (at level 10, x name, r at level 100, k at level 200, only parsing).

(** ** The program *)

(** The icon of the status notification. *)
Definition state_icon (state : pyval) : string :=
  if py_eq_str state "running" then "🟢" else "🛑".

(** Configuration *)
Definition INSTANCE_ID : string := "i-0e068c43430210bff".
Definition SNS_TOPIC_ARN : string :=
  "arn:aws:sns:ap-south-1:your account id:ec2-state-notify".

Section Handler.

Variable w : World.

(** A client call: ask the world, given the history, and record the call
    with its outcome. *)
Definition invoke (c : call) : M pyval :=
  fun h => let o := respond w h c in (o, (h ++ [(c, o)])%list).

(** [json.loads(v)]: a [str] goes to the decoder, anything else a decoded
    event can hold is refused. *)
Definition py_json_loads (v : pyval) : exn + pyval :=
  match v with
  | PyStr s => json_loads w s
  | _ => inl (TypeError ("the JSON object must be str, bytes or bytearray, not "
                           ++ type_name v))
  end.

(** [s.lower()] and [s.upper()] on a [str]. *)
Definition str_lower (s : string) : string :=
  if is_ascii s then lower_ascii s else unicode_lower w s.

Definition str_upper (s : string) : string :=
  if is_ascii s then upper_ascii s else unicode_upper w s.

(** [v.lower()] and [v.upper()]: methods of [str] only. *)
Definition py_lower (v : pyval) : exn + string :=
  match v with
  | PyStr s => inr (str_lower s)
  | _ => inl (AttributeError v "lower")
  end.

Definition py_upper (v : pyval) : exn + string :=
  match v with
  | PyStr s => inr (str_upper s)
  | _ => inl (AttributeError v "upper")
  end.

(** [publish_sms(message)].  Its two log lines carry text of the provider, a
    message id and the text of a client error, which the log stream takes;
    what is kept of them is the evaluation of the argument, which can
    raise. *)
Definition publish_sms (message : string) : M bool :=
  try_except
    (let* response := invoke (SnsPublish SNS_TOPIC_ARN message "Transactional") in
     let* _ := lift (py_subscript_key response "MessageId") in
     ret true)
    (fun e => ret false).

(** The extraction phase of [lambda_handler]: the value of [action] when
    the [if isinstance(event, dict)] statement is done. *)
Definition extract_action (event : pyval) : exn + pyval :=
  match event with
  | PyDict _ =>
      try* top := py_get event "action" PyNone in
      try* action :=
        (if truthy top then inr top
         else
           try* q := py_get event "queryStringParameters" PyNone in
           py_get (py_or q (PyDict ∅)) "action" (PyStr "")) in
      try* body := py_get event "body" PyNone in
      if negb (truthy action) && truthy body then
        match (try* raw := py_subscript_key event "body" in
               try* parsed := py_json_loads raw in
               py_get parsed "action" (PyStr "")) with
        | inr a => inr a
        | inl _ => inr action
        end
      else inr action
  | _ => inr (PyStr "")
  end.

(** [action = (action or "").lower()] on top of the extraction. *)
Definition resolve_action (event : pyval) : exn + string :=
  try* action := extract_action event in
  py_lower (py_or action (PyStr "")).

(** [resp['Reservations'][0]['Instances'][0]['State']['Name']]. *)
Definition instance_state (resp : pyval) : exn + pyval :=
  try* reservations := py_subscript_key resp "Reservations" in
  try* reservation := py_subscript_0 reservations in
  try* instances := py_subscript_key reservation "Instances" in
  try* instance := py_subscript_0 instances in
  try* state := py_subscript_key instance "State" in
  py_subscript_key state "Name".

Definition WAIT (name : string) : call := WaiterWait name [INSTANCE_ID] 10 12.

Definition test_branch : M pyval :=
  let* success :=
    publish_sms ("TEST: EC2 Monitor - Instance " ++ INSTANCE_ID) in
  ret (PyDict {[ "result" := PyStr "test"; "sms_sent" := PyBool success ]}).

Definition start_branch : M pyval :=
  let* status_resp := invoke (DescribeInstances [INSTANCE_ID]) in
  let* current_state := lift (instance_state status_resp) in
  if py_eq_str current_state "running" then
    publish_sms "🟢 EC2 - ALREADY RUNNING" ;;
    ret (PyDict {[ "result" := PyStr "already_running" ]})
  else
    publish_sms "🟡 EC2 - STARTING..." ;;
    invoke (StartInstances [INSTANCE_ID]) ;;
    invoke (WAIT "instance_running") ;;
    publish_sms "✅ EC2 - STARTED SUCCESS" ;;
    ret (PyDict {[ "result" := PyStr "started" ]}).

Definition stop_branch : M pyval :=
  publish_sms "🟡 EC2 - STOPPING..." ;;
  invoke (StopInstances [INSTANCE_ID]) ;;
  invoke (WAIT "instance_stopped") ;;
  publish_sms "🛑 EC2 - STOPPED SUCCESS" ;;
  ret (PyDict {[ "result" := PyStr "stopped" ]}).

Definition status_branch : M pyval :=
  let* resp := invoke (DescribeInstances [INSTANCE_ID]) in
  let* state := lift (instance_state resp) in
  let* upper := lift (py_upper state) in
  publish_sms (state_icon state ++ " EC2 - " ++ upper) ;;
  ret (PyDict {[ "result" := PyStr "status"; "state" := state ]}).

(** The body of the [try] statement. *)
Definition dispatch (action : string) : M pyval :=
  if String.eqb action "test" then test_branch
  else if String.eqb action "start" then start_branch
  else if String.eqb action "stop" then stop_branch
  else status_branch.

(** The [except Exception as e] clause. *)
Definition on_error (e : exn) : M pyval :=
  let error_msg := "❌ EC2 ERROR: " ++ exn_text e in
  publish_sms error_msg ;;
  ret (PyDict {[ "result" := PyStr "error"; "error" := PyStr error_msg ]}).

Definition lambda_handler (event context : pyval) : M pyval :=
  let* action := lift (resolve_action event) in
  lift (py_print ("Action received: " ++ action)) ;;
  try_except (dispatch action) on_error.

End Handler.

(** ** Observing a run *)

(** An invocation starts from the empty history. *)
Definition run (w : World) (event context : pyval) : (exn + pyval) * list entry :=
  lambda_handler w event context [].

Definition returned (w : World) (event context : pyval) : exn + pyval :=
  fst (run w event context).

Definition history (w : World) (event context : pyval) : list entry :=
  snd (run w event context).

(** The calls of a history, in the order they were made. *)
Definition calls (h : list entry) : list call := map fst h.

Definition is_compute (c : call) : bool :=
  match c with
  | SnsPublish _ _ _ => false
  | _ => true
  end.

Definition is_publish (c : call) : bool := negb (is_compute c).

Definition failed (x : entry) : bool :=
  match snd x with
  | inl _ => true
  | inr _ => false
  end.

(** No describe, start, stop or wait call of the history raised. *)
Definition provider_ok (h : list entry) : bool :=
  forallb (fun x => negb (is_compute (fst x) && failed x)) h.

(** The notification call [publish_sms message] makes. *)
Definition PUBLISH (message : string) : call :=
  SnsPublish SNS_TOPIC_ARN message "Transactional".

(** What [publish_sms] answers after history [h]. *)
Definition sms_sent (w : World) (h : list entry) (message : string) : bool :=
  match respond w h (PUBLISH message) with
  | inr response =>
      match py_subscript_key response "MessageId" with
      | inr _ => true
      | inl _ => false
      end
  | inl _ => false
  end.

(** The SNS publish API answers with a mapping that carries the id of the
    message it accepted. *)
Definition sns_contract (w : World) : Prop :=
  forall h message response,
    respond w h (PUBLISH message) = inr response ->
    exists id, py_subscript_key response "MessageId" = inr id.

(** A well-formed [describe_instances] response for one instance. *)
Definition describe_response (state : pyval) : pyval :=
  PyDict {[ "Reservations" :=
    PyList [PyDict {[ "Instances" :=
      PyList [PyDict {[ "State" := PyDict {[ "Name" := state ]} ]}] ]}] ]}.

(** How many calls of a history satisfy [p]. *)
Definition count_calls (p : call -> bool) (h : list entry) : nat :=
  length (List.filter (fun x => p (fst x)) h).

(** The result record of the [except] clause for exception [e]. *)
Definition error_result (e : exn) : pyval :=
  PyDict {[ "result" := PyStr "error";
            "error" := PyStr ("❌ EC2 ERROR: " ++ exn_text e) ]}.

(** ** Where an event carries its action *)

(** The query-parameter mapping is missing, falsy, or has no truthy
    [action]. *)
Definition no_query_action (fields : gmap string pyval) : bool :=
  match fields !! "queryStringParameters" with
  | None => true
  | Some (PyDict q) => negb (truthy (default (PyStr "") (q !! "action")))
  | Some qv => negb (truthy qv)
  end.

(** [carries w event a]: [event] carries the action text [a] in the first
    place the handler looks that has one: the top-level field, else the
    query-parameter mapping, else the JSON document in [body]. *)
Inductive carries (w : World) : pyval -> string -> Prop :=
  | carries_field fields a :
      fields !! "action" = Some (PyStr a) ->
      a <> "" ->
      carries w (PyDict fields) a
  | carries_query fields q a :
      truthy (default PyNone (fields !! "action")) = false ->
      fields !! "queryStringParameters" = Some (PyDict q) ->
      q !! "action" = Some (PyStr a) ->
      a <> "" ->
      carries w (PyDict fields) a
  | carries_body fields b d a :
      truthy (default PyNone (fields !! "action")) = false ->
      no_query_action fields = true ->
      fields !! "body" = Some (PyStr b) ->
      b <> "" ->
      json_loads w b = inr (PyDict d) ->
      d !! "action" = Some (PyStr a) ->
      carries w (PyDict fields) a.

Definition is_dict (v : pyval) : bool :=
  match v with
  | PyDict _ => true
  | _ => false
  end.

(** ** Sample worlds, for closed examples

    Their case mapping off ASCII is the one of text whose other characters
    have no case (symbols, surrogates). *)

Definition DQ : string := String "034"%char "".

(** The document [{"action": "START"}]. *)
Definition body_START : string :=
  "{" ++ DQ ++ "action" ++ DQ ++ ": " ++ DQ ++ "START" ++ DQ ++ "}".

(** A decoder that knows one document and refuses every other text. *)
Definition sample_loads (s : string) : exn + pyval :=
  if String.eqb s body_START
  then inr (PyDict {[ "action" := PyStr "START" ]})
  else inl (Exn "JSONDecodeError" "Expecting value: line 1 column 1 (char 0)").

Definition ClientError (text : string) : exn := Exn "ClientError" text.

(** The string made of the one code point U+D800. *)
Definition lone_surrogate : string :=
  String "237"%char (String "160"%char (String "128"%char "")).

(** The document [{"action": 5}]. *)
Definition body_five : string :=
  "{" ++ DQ ++ "action" ++ DQ ++ ": 5}".

(** Every call succeeds; the instance is in state [state]. *)
Definition calm_world (state : string) : World := {|
  respond := fun _ c =>
    match c with
    | SnsPublish _ _ _ => inr (PyDict {[ "MessageId" := PyStr "m-0001" ]})
    | DescribeInstances _ => inr (describe_response (PyStr state))
    | _ => inr (PyDict ∅)
    end;
  json_loads := sample_loads;
  unicode_lower := lower_ascii;
  unicode_upper := upper_ascii
|}.

(** The instance is stopped, the topic is unreachable and the waiter runs
    out of attempts. *)
Definition stormy_world : World := {|
  respond := fun _ c =>
    match c with
    | SnsPublish _ _ _ => inl (ClientError "topic not found")
    | DescribeInstances _ => inr (describe_response (PyStr "stopped"))
    | WaiterWait _ _ _ _ => inl (Exn "WaiterError" "Max attempts exceeded")
    | _ => inr (PyDict ∅)
    end;
  json_loads := sample_loads;
  unicode_lower := lower_ascii;
  unicode_upper := upper_ascii
|}.

(** Sample events: the action in the top-level field, in the query-parameter
    mapping, in the body. *)
Definition ev_action (a : pyval) : pyval := PyDict {[ "action" := a ]}.

Definition ev_query_raw (q : pyval) : pyval :=
  PyDict {[ "queryStringParameters" := q ]}.

Definition ev_query (a : pyval) : pyval :=
  ev_query_raw (PyDict {[ "action" := a ]}).

Definition ev_body (b : string) : pyval := PyDict {[ "body" := PyStr b ]}.

(** ** Further observations *)

Definition is_str (v : pyval) : bool :=
  match v with
  | PyStr _ => true
  | _ => false
  end.

(** [ill_typed w event e]: the places where the extraction phase meets a
    value of the wrong type, and the exception [e] it raises there: a
    truthy action that is not a [str] (in the top-level field, in the
    query-parameter mapping or in the decoded body), or a truthy
    [queryStringParameters] that is not a mapping. *)
Inductive ill_typed (w : World) : pyval -> exn -> Prop :=
  | ill_field fields v :
      fields !! "action" = Some v ->
      truthy v = true ->
      is_str v = false ->
      ill_typed w (PyDict fields) (AttributeError v "lower")
  | ill_query fields qv :
      truthy (default PyNone (fields !! "action")) = false ->
      fields !! "queryStringParameters" = Some qv ->
      truthy qv = true ->
      is_dict qv = false ->
      ill_typed w (PyDict fields) (AttributeError qv "get")
  | ill_query_action fields q v :
      truthy (default PyNone (fields !! "action")) = false ->
      fields !! "queryStringParameters" = Some (PyDict q) ->
      q !! "action" = Some v ->
      truthy v = true ->
      is_str v = false ->
      ill_typed w (PyDict fields) (AttributeError v "lower")
  | ill_body_action fields body d v :
      truthy (default PyNone (fields !! "action")) = false ->
      no_query_action fields = true ->
      fields !! "body" = Some body ->
      truthy body = true ->
      py_json_loads w body = inr (PyDict d) ->
      d !! "action" = Some v ->
      truthy v = true ->
      is_str v = false ->
      ill_typed w (PyDict fields) (AttributeError v "lower").

(** The first assignment of the extraction on its own:
    [event.get('action') or
     (event.get('queryStringParameters') or {}).get('action','')]. *)
Definition field_or_query (fields : gmap string pyval) : exn + pyval :=
  if truthy (default PyNone (fields !! "action"))
  then inr (default PyNone (fields !! "action"))
  else py_get (py_or (default PyNone (fields !! "queryStringParameters"))
                     (PyDict ∅)) "action" (PyStr "").

(** The call is addressed to the configured instance or topic, with the
    fixed SMS type and waiter configuration. *)
Definition well_targeted (c : call) : bool :=
  match c with
  | SnsPublish topic _ sms_type =>
      String.eqb topic SNS_TOPIC_ARN && String.eqb sms_type "Transactional"
  | DescribeInstances ids | StartInstances ids | StopInstances ids =>
      bool_decide (ids = [INSTANCE_ID])
  | WaiterWait name ids delay max_attempts =>
      (String.eqb name "instance_running" || String.eqb name "instance_stopped")
      && bool_decide (ids = [INSTANCE_ID])
      && (delay =? 10) && (max_attempts =? 12)
  end.

Definition is_start (c : call) : bool :=
  match c with
  | StartInstances _ => true
  | _ => false
  end.

Definition is_stop (c : call) : bool :=
  match c with
  | StopInstances _ => true
  | _ => false
  end.

Definition is_wait (c : call) : bool :=
  match c with
  | WaiterWait _ _ _ _ => true
  | _ => false
  end.

(** The [result] discriminator of a result record. *)
Definition result_tag (r : pyval) : option string :=
  match r with
  | PyDict fields =>
      match fields !! "result" with
      | Some (PyStr tag) => Some tag
      | _ => None
      end
  | _ => None
  end.

Definition returned_tag (w : World) (event context : pyval) : option string :=
  match returned w event context with
  | inr r => result_tag r
  | inl _ => None
  end.

(** The discriminators each action can end on. *)
Definition allowed_tags (action : string) : list string :=
  if String.eqb action "test" then ["test"]
  else if String.eqb action "start" then ["already_running"; "started"; "error"]
  else if String.eqb action "stop" then ["stopped"; "error"]
  else ["status"; "error"].

(** The first describe, start, stop or wait call of a history that raised,
    with its exception and the entries that follow it. *)
Fixpoint first_failure (h : list entry) : option (call * exn * list entry) :=
  match h with
  | [] => None
  | (c, o) :: rest =>
      if is_compute c then
        match o with
        | inl e => Some (c, e, rest)
        | inr _ => first_failure rest
        end
      else first_failure rest
  end.

(** A world told what to answer: [describe] to the describe call, [publish]
    to every notification, [command] to start, stop and wait; its decoder
    reads [text] as [doc] and refuses every other text. *)
Definition scripted_world (text : string) (doc : pyval)
    (describe publish command : outcome) : World := {|
  respond := fun _ c =>
    match c with
    | SnsPublish _ _ _ => publish
    | DescribeInstances _ => describe
    | _ => command
    end;
  json_loads := fun s =>
    if String.eqb s text then inr doc
    else inl (Exn "JSONDecodeError" "Expecting value: line 1 column 1 (char 0)");
  unicode_lower := lower_ascii;
  unicode_upper := upper_ascii
|}.

(** ** The log line *)

Lemma first_surrogate_none s p q :
  first_surrogate s p = None -> first_surrogate s q = None.
Proof.
  revert p q. induction s as [| c s IH]; intros p q; [reflexivity |].
  cbn [first_surrogate]. destruct (surrogate_at (String c s)); [discriminate |].
  apply IH.
Qed.

(** The prefix of the log line is ASCII: the line can be written exactly
    when the action can. *)
Lemma writable_log_line action :
  writable ("Action received: " ++ action) = writable action.
Proof.
  unfold writable, encode_error.
  change (first_surrogate ("Action received: " ++ action) 0)
    with (first_surrogate action 17).
  destruct (first_surrogate action 17) as [[[p c] r] |] eqn:E17;
    destruct (first_surrogate action 0) as [[[p' c'] r'] |] eqn:E0;
    try reflexivity.
  - now rewrite (first_surrogate_none _ _ 17%N E0) in E17.
  - now rewrite (first_surrogate_none _ _ 0%N E17) in E0.
Qed.

Lemma py_print_writable action :
  writable action = true -> py_print ("Action received: " ++ action) = inr tt.
Proof.
  rewrite <- writable_log_line. unfold writable, py_print.
  now destruct (encode_error _).
Qed.

Lemma py_print_raises text e :
  py_print text = inl e ->
  exn_class e = "UnicodeEncodeError" /\ writable text = false.
Proof.
  unfold py_print, writable, encode_error.
  destruct (first_surrogate text 0) as [[[p c] r] |]; [| discriminate].
  intros H. injection H as <-. split; reflexivity.
Qed.

Lemma py_print_unwritable action :
  writable action = false ->
  exists e, py_print ("Action received: " ++ action) = inl e.
Proof.
  rewrite <- writable_log_line. unfold writable, py_print.
  destruct (encode_error _) as [e |]; [eauto | discriminate].
Qed.

(** ** Stepping lemmas *)

Section Steps.

Variable w : World.

Lemma bind_inr {A B} (m : M A) (k : A -> M B) h a h' :
  m h = (inr a, h') -> bind m k h = k a h'.
Proof. intros E. unfold bind. now rewrite E. Qed.

Lemma bind_inl {A B} (m : M A) (k : A -> M B) h e h' :
  m h = (inl e, h') -> bind m k h = (inl e, h').
Proof. intros E. unfold bind. now rewrite E. Qed.

Lemma try_except_inr {A} (m : M A) handler h a h' :
  m h = (inr a, h') -> try_except m handler h = (inr a, h').
Proof. intros E. unfold try_except. now rewrite E. Qed.

Lemma try_except_inl {A} (m : M A) handler h e h' :
  m h = (inl e, h') -> try_except m handler h = handler e h'.
Proof. intros E. unfold try_except. now rewrite E. Qed.

Lemma invoke_run c h :
  invoke w c h = (respond w h c, (h ++ [(c, respond w h c)])%list).
Proof. reflexivity. Qed.

(** [publish_sms] makes exactly one call and hands back a boolean, whatever
    the call does. *)
Lemma publish_sms_run message h :
  publish_sms w message h =
  (inr (sms_sent w h message),
   (h ++ [(PUBLISH message, respond w h (PUBLISH message))])%list).
Proof.
  unfold publish_sms, try_except, bind, invoke, lift, ret, sms_sent, PUBLISH.
  destruct (respond w h _) as [e | response]; [reflexivity |].
  destruct (py_subscript_key response "MessageId"); reflexivity.
Qed.

Lemma dispatch_test : dispatch w "test" = test_branch w.
Proof. reflexivity. Qed.

Lemma dispatch_start : dispatch w "start" = start_branch w.
Proof. reflexivity. Qed.

Lemma dispatch_stop : dispatch w "stop" = stop_branch w.
Proof. reflexivity. Qed.

Lemma dispatch_other action :
  action <> "test" -> action <> "start" -> action <> "stop" ->
  dispatch w action = status_branch w.
Proof.
  intros Ht Hs Hp. unfold dispatch.
  apply String.eqb_neq in Ht, Hs, Hp. now rewrite Ht, Hs, Hp.
Qed.

(** Once the action is resolved and logged the handler is its [try]
    statement. *)
Lemma lambda_handler_resolved event context action h :
  resolve_action w event = inr action ->
  writable action = true ->
  lambda_handler w event context h =
  try_except (dispatch w action) (on_error w) h.
Proof.
  intros E Hw. unfold lambda_handler, bind, lift.
  now rewrite E, (py_print_writable _ Hw).
Qed.

(** A log line that cannot be written leaves the handler before the [try]
    statement. *)
Lemma lambda_handler_unwritable event context action e h :
  resolve_action w event = inr action ->
  py_print ("Action received: " ++ action) = inl e ->
  lambda_handler w event context h = (inl e, h).
Proof. intros E Hp. unfold lambda_handler, bind, lift. now rewrite E, Hp. Qed.

(** A failing extraction leaves the handler before the [try] statement. *)
Lemma lambda_handler_unresolved event context e h :
  resolve_action w event = inl e ->
  lambda_handler w event context h = (inl e, h).
Proof. intros E. unfold lambda_handler, bind, lift. now rewrite E. Qed.

Lemma on_error_run e h :
  on_error w e h =
  (inr (PyDict {[ "result" := PyStr "error";
                  "error" := PyStr ("❌ EC2 ERROR: " ++ exn_text e) ]}),
   (h ++ [(PUBLISH ("❌ EC2 ERROR: " ++ exn_text e),
           respond w h (PUBLISH ("❌ EC2 ERROR: " ++ exn_text e)))])%list).
Proof.
  unfold on_error. erewrite bind_inr by apply publish_sms_run. reflexivity.
Qed.

End Steps.

(** Splits a run from the empty history into its three beginnings: the
    extraction raised, the log line could not be written, the [try]
    statement was entered. *)
Ltac run_cases w event action Hres Hw :=
  let e0 := fresh "e0" in
  let Hp := fresh "Hp" in
  destruct (resolve_action w event) as [e0 | action] eqn:Hres;
  [ rewrite (lambda_handler_unresolved w event _ e0 [] Hres) in *
  | destruct (writable action) eqn:Hw;
    [ rewrite (lambda_handler_resolved w event _ action [] Hres Hw) in *
    | destruct (py_print_unwritable action Hw) as [e0 Hp];
      rewrite (lambda_handler_unwritable w event _ action e0 [] Hres Hp)
        in * ] ].

(** ** Running a branch *)

(** Unfolds the monad and walks through a branch, splitting on what each
    client call answers. *)
Ltac exec w :=
  repeat first
    [ rewrite !publish_sms_run
    | progress cbv beta iota zeta
        delta [bind try_except lift ret invoke on_error
               start_branch stop_branch status_branch test_branch fst snd]
    | match goal with
      | H : respond w ?h ?c = _ |- context [respond w ?h ?c] => rewrite H
      | H : instance_state ?r = _ |- context [instance_state ?r] => rewrite H
      | H : py_eq_str ?s ?t = _ |- context [py_eq_str ?s ?t] => rewrite H
      | |- context [match respond w ?h ?c with _ => _ end] =>
          destruct (respond w h c) eqn:?
      | |- context [match instance_state ?r with _ => _ end] =>
          destruct (instance_state r) eqn:?
      | |- context [py_upper w (PyStr ?s)] =>
          change (py_upper w (PyStr s)) with (@inr exn string (str_upper w s))
      | |- context [match py_upper w ?r with _ => _ end] =>
          destruct (py_upper w r) eqn:?
      | |- context [if py_eq_str ?s ?t then _ else _] =>
          destruct (py_eq_str s t) eqn:?
      end ].

(** Splits a membership in a concrete history into its entries. *)
Ltac entries :=
  repeat match goal with
    | H : In _ _ |- _ => progress cbn [In app map fst calls] in H
    | H : _ \/ _ |- _ => destruct H
    | H : False |- _ => destruct H
    | H : (_, _) = (_, _) |- _ => inversion H; subst; clear H
    | H : _ = _ |- _ => discriminate H
    end.

Section Claims.

Variable w : World.

Local Abbreviation DESCRIBE := (DescribeInstances [INSTANCE_ID]).

(** After the extraction phase the handler always comes back with a
    record. *)
Lemma try_dispatch_returns action h :
  exists r h', try_except (dispatch w action) (on_error w) h = (inr r, h').
Proof.
  unfold dispatch.
  destruct (String.eqb action "test"); [| destruct (String.eqb action "start");
    [| destruct (String.eqb action "stop")]];
    exec w; eauto.
Qed.

(** C3: when the action is [start] and the describe call reports the state
    [running], the handler answers [{result: already_running}], its only
    calls are the describe call and the "already running" notification, and
    so no start and no stop command is issued; the outcome of the
    notification plays no part. *)
Theorem start_when_running event context resp :
  resolve_action w event = inr "start" ->
  respond w [] DESCRIBE = inr resp ->
  instance_state resp = inr (PyStr "running") ->
  returned w event context =
    inr (PyDict {[ "result" := PyStr "already_running" ]}) /\
  calls (history w event context) =
    [ DESCRIBE; PUBLISH "🟢 EC2 - ALREADY RUNNING" ] /\
  (forall ids, ~ In (StartInstances ids) (calls (history w event context)) /\
               ~ In (StopInstances ids) (calls (history w event context))).
Proof.
  intros Hres Hd Hs.
  assert (Hr : py_eq_str (PyStr "running") "running" = true) by reflexivity.
  unfold returned, history, run.
  rewrite (lambda_handler_resolved w _ _ _ _ Hres eq_refl), dispatch_start.
  exec w. repeat split; intros Hin; entries.
Qed.

(** C4: when the action is [start], the describe call reports a state other
    than [running] and no provider call raises, the handler answers
    [{result: started}] after exactly these calls, in this order: describe,
    the "starting" notification, one start command, one wait for
    [instance_running] with a delay of 10 seconds and at most 12 attempts,
    the "started success" notification. *)
Theorem start_when_not_running event context resp state :
  resolve_action w event = inr "start" ->
  respond w [] DESCRIBE = inr resp ->
  instance_state resp = inr state ->
  py_eq_str state "running" = false ->
  provider_ok (history w event context) = true ->
  returned w event context = inr (PyDict {[ "result" := PyStr "started" ]}) /\
  calls (history w event context) =
    [ DESCRIBE;
      PUBLISH "🟡 EC2 - STARTING...";
      StartInstances [INSTANCE_ID];
      WaiterWait "instance_running" [INSTANCE_ID] 10 12;
      PUBLISH "✅ EC2 - STARTED SUCCESS" ].
Proof.
  intros Hres Hd Hs Hr. unfold returned, history, run.
  rewrite (lambda_handler_resolved w _ _ _ _ Hres eq_refl), dispatch_start.
  exec w; intros Hok; try discriminate Hok.
  split; reflexivity.
Qed.

(** C5: when the action is [stop] the handler never queries the state: its
    first two calls are the "stopping" notification and the stop command,
    and no describe call is ever made.  When no provider call raises it
    answers [{result: stopped}] after exactly: the "stopping" notification,
    one stop command, one wait for [instance_stopped] with a delay of 10
    seconds and at most 12 attempts, the "stopped success" notification. *)
Theorem stop_unconditional event context :
  resolve_action w event = inr "stop" ->
  (firstn 2 (calls (history w event context)) =
     [ PUBLISH "🟡 EC2 - STOPPING..."; StopInstances [INSTANCE_ID] ] /\
   forall ids, ~ In (DescribeInstances ids) (calls (history w event context))) /\
  (provider_ok (history w event context) = true ->
   returned w event context = inr (PyDict {[ "result" := PyStr "stopped" ]}) /\
   calls (history w event context) =
     [ PUBLISH "🟡 EC2 - STOPPING...";
       StopInstances [INSTANCE_ID];
       WaiterWait "instance_stopped" [INSTANCE_ID] 10 12;
       PUBLISH "🛑 EC2 - STOPPED SUCCESS" ]).
Proof.
  intros Hres. unfold returned, history, run.
  rewrite (lambda_handler_resolved w _ _ _ _ Hres eq_refl), dispatch_stop.
  exec w; (split; [split; [reflexivity | intros ids Hin; entries] |]);
    intros Hok; try discriminate Hok.
  split; reflexivity.
Qed.

(** C8: [publish_sms] never raises and makes exactly one publish call; with
    an SNS that answers every accepted message with its id, it returns
    [true] exactly when that call returned and [false] exactly when it
    raised.  An invocation with action [test] makes the one test
    notification and answers [{result: test, sms_sent: b}] with [b] the
    value the helper returned. *)
Theorem notification_helper_contract message h event context :
  sns_contract w ->
  resolve_action w event = inr "test" ->
  (exists b,
     publish_sms w message h =
       (inr b, (h ++ [(PUBLISH message, respond w h (PUBLISH message))])%list) /\
     (b = true <-> exists response, respond w h (PUBLISH message) = inr response) /\
     (b = false <-> exists e, respond w h (PUBLISH message) = inl e)) /\
  (exists b,
     fst (publish_sms w ("TEST: EC2 Monitor - Instance " ++ INSTANCE_ID) []) = inr b /\
     returned w event context =
       inr (PyDict {[ "result" := PyStr "test"; "sms_sent" := PyBool b ]}) /\
     calls (history w event context) =
       [ PUBLISH ("TEST: EC2 Monitor - Instance " ++ INSTANCE_ID) ]).
Proof.
  intros Hsns Hres. split.
  - exists (sms_sent w h message). split; [apply publish_sms_run |].
    unfold sms_sent.
    destruct (respond w h (PUBLISH message)) as [e | response] eqn:E.
    + split; split; intros H; eauto; try discriminate H.
      destruct H as [? H]; discriminate H.
    + destruct (Hsns _ _ _ E) as [id Hid]. rewrite Hid.
      split; split; intros H; eauto; try discriminate H.
      destruct H as [? H]; discriminate H.
  - exists (sms_sent w [] ("TEST: EC2 Monitor - Instance " ++ INSTANCE_ID)).
    unfold returned, history, run.
    rewrite (lambda_handler_resolved w _ _ _ _ Hres eq_refl), dispatch_test.
    exec w. repeat split.
Qed.

Lemma state_icon_running state :
  state_icon state = "🟢" <-> state = PyStr "running".
Proof.
  unfold state_icon, py_eq_str. split.
  - destruct state; try discriminate.
    destruct (String.eqb_spec s "running"); [now subst | discriminate].
  - intros ->. reflexivity.
Qed.

(** C7, amended: when the resolved action is none of [test], [start],
    [stop] (the empty action included) and the log stream takes it, the
    handler is its status branch: it describes the instance and, for a
    reported state string [s], sends one notification made of the state
    icon and the upper-cased state and answers [{result: status, state:
    s}].  The icon is the running icon if and only if [s] is [running], and
    the stopped icon for every other state string. *)
Theorem default_status_branch event context action resp s :
  resolve_action w event = inr action ->
  action <> "test" -> action <> "start" -> action <> "stop" ->
  writable action = true ->
  respond w [] DESCRIBE = inr resp ->
  instance_state resp = inr (PyStr s) ->
  (forall h, lambda_handler w event context h =
             try_except (status_branch w) (on_error w) h) /\
  returned w event context =
    inr (PyDict {[ "result" := PyStr "status"; "state" := PyStr s ]}) /\
  calls (history w event context) =
    [ DESCRIBE; PUBLISH (state_icon (PyStr s) ++ " EC2 - " ++ str_upper w s) ] /\
  (state_icon (PyStr s) = "🟢" <-> s = "running") /\
  (s <> "running" -> state_icon (PyStr s) = "🛑").
Proof.
  intros Hres Ht Hs Hp Hw Hd Hst.
  assert (Hh : forall h, lambda_handler w event context h =
                         try_except (status_branch w) (on_error w) h).
  { intros h. rewrite (lambda_handler_resolved w _ _ _ _ Hres Hw).
    now rewrite dispatch_other. }
  split; [exact Hh |]. unfold returned, history, run. rewrite Hh.
  exec w.
  split; [reflexivity |]. split; [reflexivity |]. split.
  - rewrite state_icon_running. split; congruence.
  - intros Hne. unfold state_icon, py_eq_str.
    apply String.eqb_neq in Hne. now rewrite Hne.
Qed.

Lemma resolve_action_non_mapping event :
  is_dict event = false -> resolve_action w event = inr "".
Proof. destruct event; intros H; try discriminate H; reflexivity. Qed.

(** C10: an event that is not a mapping resolves to the empty action without
    raising, the handler is then its status branch, and with a describe
    call that reports the state string [s] it answers
    [{result: status, state: s}]. *)
Theorem non_mapping_event event context resp s :
  is_dict event = false ->
  respond w [] DESCRIBE = inr resp ->
  instance_state resp = inr (PyStr s) ->
  extract_action w event = inr (PyStr "") /\
  resolve_action w event = inr "" /\
  (forall h, lambda_handler w event context h =
             try_except (status_branch w) (on_error w) h) /\
  returned w event context =
    inr (PyDict {[ "result" := PyStr "status"; "state" := PyStr s ]}).
Proof.
  intros Hev Hd Hst.
  pose proof (resolve_action_non_mapping event Hev) as Hres.
  assert (Hh : forall h, lambda_handler w event context h =
                         try_except (status_branch w) (on_error w) h).
  { intros h. now rewrite (lambda_handler_resolved w _ _ _ _ Hres eq_refl). }
  repeat split; trivial.
  - destruct event; try discriminate Hev; reflexivity.
  - unfold returned, run. rewrite Hh.
    exec w. reflexivity.
Qed.

(** The first statement of the extraction: the top-level field, else the
    query-parameter mapping. *)
Lemma extract_action_unfold fields :
  extract_action w (PyDict fields) =
  bind_exn
    (if truthy (default PyNone (fields !! "action"))
     then inr (default PyNone (fields !! "action"))
     else py_get (py_or (default PyNone (fields !! "queryStringParameters"))
                        (PyDict ∅)) "action" (PyStr ""))
    (fun action =>
       if negb (truthy action) && truthy (default PyNone (fields !! "body"))
       then
         match bind_exn (py_subscript_key (PyDict fields) "body")
                 (fun raw => bind_exn (py_json_loads w raw)
                    (fun parsed => py_get parsed "action" (PyStr ""))) with
         | inr a => inr a
         | inl _ => inr action
         end
       else inr action).
Proof. reflexivity. Qed.

Lemma extract_action_body_ignored fields b e :
  fields !! "body" = Some (PyStr b) ->
  json_loads w b = inl e ->
  extract_action w (PyDict fields) =
  extract_action w (PyDict (delete "body" fields)).
Proof.
  intros Hb Hj. rewrite !extract_action_unfold.
  rewrite !lookup_delete_ne by discriminate. rewrite lookup_delete_eq, Hb.
  match goal with |- bind_exn ?x _ = _ => destruct x as [e0 | action] end;
    [reflexivity |].
  cbn [bind_exn py_subscript_key default from_option id truthy]. rewrite Hb.
  cbn [py_json_loads bind_exn]. rewrite Hj.
  rewrite andb_false_r. now destruct (_ && _).
Qed.

(** C6: a [body] string the decoder refuses is ignored: the handler does
    what it does on the same event without the body.  When the rest of the
    event carries no action, the action resolves to the empty string, the
    handler is its status branch, and it returns a record rather than
    raising. *)
Theorem malformed_body_ignored fields b e context :
  fields !! "body" = Some (PyStr b) ->
  json_loads w b = inl e ->
  (forall h, lambda_handler w (PyDict fields) context h =
             lambda_handler w (PyDict (delete "body" fields)) context h) /\
  (forall a,
     extract_action w (PyDict (delete "body" fields)) = inr a ->
     truthy a = false ->
     resolve_action w (PyDict fields) = inr "" /\
     (forall h, lambda_handler w (PyDict fields) context h =
                try_except (status_branch w) (on_error w) h) /\
     exists r, returned w (PyDict fields) context = inr r).
Proof.
  intros Hb Hj.
  pose proof (extract_action_body_ignored fields b e Hb Hj) as Hx.
  split.
  - intros h. unfold lambda_handler, resolve_action. now rewrite Hx.
  - intros a Ha Hfalsy.
    assert (Hres : resolve_action w (PyDict fields) = inr "").
    { unfold resolve_action. rewrite Hx, Ha. unfold bind_exn, py_or.
      now rewrite Hfalsy. }
    split; [exact Hres |]. split.
    + intros h. now rewrite (lambda_handler_resolved w _ _ _ _ Hres eq_refl).
    + unfold returned, run.
      rewrite (lambda_handler_resolved w _ _ _ _ Hres eq_refl).
      destruct (try_dispatch_returns "" []) as (r & h' & E).
      exists r. now rewrite E.
Qed.

Lemma truthy_str a : a <> "" -> truthy (PyStr a) = true.
Proof. intros H. cbn. apply String.eqb_neq in H. now rewrite H. Qed.

Lemma lower_or_empty a :
  py_lower w (py_or (PyStr a) (PyStr "")) = inr (str_lower w a).
Proof.
  unfold py_or. cbn [truthy].
  destruct (String.eqb_spec a ""); [now subst | reflexivity].
Qed.

(** With no usable query-parameter mapping, the query step of the
    extraction ends on a falsy value. *)
Lemma query_step_falsy fields :
  no_query_action fields = true ->
  exists v,
    py_get (py_or (default PyNone (fields !! "queryStringParameters"))
                  (PyDict ∅)) "action" (PyStr "") = inr v /\
    truthy v = false.
Proof.
  unfold no_query_action, py_or. intros H.
  destruct (fields !! "queryStringParameters") as [qv |];
    cbn [default from_option id].
  - destruct qv as [| bq | n | x | s | items | q].
    1-6: apply negb_true_iff in H; cbn [truthy] in *; try rewrite H;
         eexists; split; reflexivity.
    destruct (truthy (PyDict q)) eqn:Hq.
    + cbn [py_get]. eexists. split; [reflexivity |].
      now apply negb_true_iff in H.
    + eexists. split; reflexivity.
  - eexists. split; reflexivity.
Qed.

Lemma carries_resolves event a :
  carries w event a -> resolve_action w event = inr (str_lower w a).
Proof.
  intros [fields a0 Hf Hne | fields q a0 Htop Hq Hqa Hne
         | fields b d a0 Htop Hnq Hb Hbne Hj Hd];
    unfold resolve_action; rewrite extract_action_unfold.
  - rewrite Hf. cbn [default from_option id]. rewrite (truthy_str _ Hne).
    cbn [bind_exn]. rewrite (truthy_str _ Hne).
    cbn [bind_exn negb andb]. apply lower_or_empty.
  - rewrite Htop, Hq. cbn [default from_option id].
    assert (Hqt : truthy (PyDict q) = true).
    { cbn [truthy]. apply negb_true_iff, bool_decide_eq_false.
      intros ->. now rewrite lookup_empty in Hqa. }
    unfold py_or at 1. rewrite Hqt. cbn [py_get]. rewrite Hqa.
    cbn [default from_option id bind_exn]. rewrite (truthy_str _ Hne).
    cbn [negb andb bind_exn]. apply lower_or_empty.
  - rewrite Htop. destruct (query_step_falsy fields Hnq) as (v & Hv & Hvf).
    rewrite Hv, Hb. cbn [bind_exn default from_option id]. rewrite Hvf, (truthy_str _ Hbne).
    cbn [negb andb py_subscript_key]. rewrite Hb. cbn [py_json_loads bind_exn].
    rewrite Hj. cbn [bind_exn py_get]. rewrite Hd.
    cbn [default from_option id bind_exn]. apply lower_or_empty.
Qed.

(** C2: an event that carries the action text [a] in the top-level field,
    or else in the query-parameter mapping, or else in the JSON body,
    resolves to the lower-cased [a]; two events carrying texts that are
    equal up to case resolve to the same action and make the handler do the
    same thing, whichever of the three places each uses. *)
Theorem action_resolution event event' a a' :
  carries w event a ->
  carries w event' a' ->
  str_lower w a = str_lower w a' ->
  resolve_action w event = inr (str_lower w a) /\
  resolve_action w event' = resolve_action w event /\
  (forall context h,
     lambda_handler w event context h = lambda_handler w event' context h).
Proof.
  intros H H' Hl.
  pose proof (carries_resolves _ _ H) as R.
  pose proof (carries_resolves _ _ H') as R'.
  split; [exact R |]. split; [now rewrite R, R', Hl |].
  intros context h. unfold lambda_handler. now rewrite R, R', Hl.
Qed.

(** C1, amended: once the extraction phase has resolved an action and its
    log line is written, the handler returns a record; when the extraction
    raises, or the log stream refuses the line, the handler raises that
    exception before any call is made.  Every exception of the dispatch is
    answered with the error record after one notification attempt, and in
    particular a describe, start, stop or wait call that raised yields the
    error record with its text, the history ending with the error
    notification whatever that notification did. *)
Theorem handler_boundary event context :
  (forall action,
     resolve_action w event = inr action ->
     writable action = true ->
     exists r, returned w event context = inr r) /\
  (forall e,
     resolve_action w event = inl e ->
     run w event context = (inl e, [])) /\
  (forall action,
     resolve_action w event = inr action ->
     writable action = false ->
     exists e,
       exn_class e = "UnicodeEncodeError" /\
       run w event context = (inl e, [])) /\
  (forall action e h',
     resolve_action w event = inr action ->
     writable action = true ->
     dispatch w action [] = (inl e, h') ->
     run w event context =
       (inr (error_result e),
        (h' ++ [(PUBLISH ("❌ EC2 ERROR: " ++ exn_text e),
                 respond w h' (PUBLISH ("❌ EC2 ERROR: " ++ exn_text e)))])%list)) /\
  (forall c e,
     In (c, inl e) (history w event context) ->
     is_compute c = true ->
     returned w event context = inr (error_result e) /\
     last (calls (history w event context)) =
       Some (PUBLISH ("❌ EC2 ERROR: " ++ exn_text e))).
Proof.
  split; [| split; [| split; [| split]]].
  - intros action Hres Hw. unfold returned, run.
    rewrite (lambda_handler_resolved w _ _ _ _ Hres Hw).
    destruct (try_dispatch_returns action []) as (r & h' & E).
    exists r. now rewrite E.
  - intros e Hres. apply lambda_handler_unresolved, Hres.
  - intros action Hres Hw. unfold run.
    destruct (py_print_unwritable action Hw) as [e Hp].
    exists e. split; [apply (py_print_raises _ _ Hp) |].
    apply (lambda_handler_unwritable w _ _ _ _ _ Hres Hp).
  - intros action e h' Hres Hw Hd. unfold run.
    rewrite (lambda_handler_resolved w _ _ _ _ Hres Hw).
    rewrite (try_except_inl _ _ _ _ _ Hd). apply on_error_run.
  - unfold returned, history, run.
    run_cases w event action Hres Hw;
      [intros c e Hin; destruct Hin | | intros c e Hin; destruct Hin].
    unfold dispatch.
    destruct (String.eqb action "test");
      [| destruct (String.eqb action "start");
         [| destruct (String.eqb action "stop")]];
      exec w; intros c err Hin Hc; entries; split; reflexivity.
Qed.

(** C9, amended: an invocation makes at most five client calls, at most
    three of them compute calls (describe, start or stop, wait) and at most
    two of them notifications. *)
Theorem outbound_calls_bound event context :
  (length (history w event context) <= 5)%nat /\
  (count_calls is_compute (history w event context) <= 3)%nat /\
  (count_calls is_publish (history w event context) <= 2)%nat.
Proof.
  unfold history, run.
  run_cases w event action Hres Hw; [cbn; lia | | cbn; lia].
  unfold dispatch.
  destruct (String.eqb action "test");
    [| destruct (String.eqb action "start");
       [| destruct (String.eqb action "stop")]];
    exec w; cbn; lia.
Qed.

End Claims.

(** ** Closed instances *)

Lemma calm_world_sns_contract state : sns_contract (calm_world state).
Proof.
  intros h message response E. cbn in E. injection E as <-.
  eexists. reflexivity.
Qed.

Lemma start_when_running_witness :
  returned (calm_world "running") (ev_action (PyStr "start")) PyNone =
    inr (PyDict {[ "result" := PyStr "already_running" ]}) /\
  calls (history (calm_world "running") (ev_action (PyStr "start")) PyNone) =
    [ DescribeInstances [INSTANCE_ID]; PUBLISH "🟢 EC2 - ALREADY RUNNING" ].
Proof.
  pose proof (start_when_running (calm_world "running")
                (ev_action (PyStr "start")) PyNone
                (describe_response (PyStr "running"))
                eq_refl eq_refl eq_refl) as (Hr & Hc & _).
  split; [exact Hr | exact Hc].
Defined.

Lemma start_when_not_running_witness :
  returned (calm_world "stopped") (ev_action (PyStr "START")) PyNone =
    inr (PyDict {[ "result" := PyStr "started" ]}) /\
  calls (history (calm_world "stopped") (ev_action (PyStr "START")) PyNone) =
    [ DescribeInstances [INSTANCE_ID];
      PUBLISH "🟡 EC2 - STARTING...";
      StartInstances [INSTANCE_ID];
      WaiterWait "instance_running" [INSTANCE_ID] 10 12;
      PUBLISH "✅ EC2 - STARTED SUCCESS" ].
Proof.
  apply (start_when_not_running (calm_world "stopped")
           (ev_action (PyStr "START")) PyNone
           (describe_response (PyStr "stopped")) (PyStr "stopped"));
    reflexivity.
Defined.

Lemma stop_unconditional_witness :
  returned (calm_world "running") (ev_action (PyStr "Stop")) PyNone =
    inr (PyDict {[ "result" := PyStr "stopped" ]}) /\
  calls (history (calm_world "running") (ev_action (PyStr "Stop")) PyNone) =
    [ PUBLISH "🟡 EC2 - STOPPING...";
      StopInstances [INSTANCE_ID];
      WaiterWait "instance_stopped" [INSTANCE_ID] 10 12;
      PUBLISH "🛑 EC2 - STOPPED SUCCESS" ].
Proof.
  apply (stop_unconditional (calm_world "running")
           (ev_action (PyStr "Stop")) PyNone eq_refl).
  reflexivity.
Defined.

Lemma action_resolution_witness :
  resolve_action (calm_world "stopped") (ev_action (PyStr "start")) = inr "start" /\
  resolve_action (calm_world "stopped") (ev_body body_START) = inr "start" /\
  resolve_action (calm_world "stopped") (ev_query (PyStr "Start")) = inr "start".
Proof.
  assert (Hf : carries (calm_world "stopped") (ev_action (PyStr "start")) "start").
  { apply carries_field; [reflexivity | discriminate]. }
  assert (Hq : carries (calm_world "stopped") (ev_query (PyStr "Start")) "Start").
  { apply carries_query with (q := {[ "action" := PyStr "Start" ]});
      [reflexivity | reflexivity | reflexivity | discriminate]. }
  assert (Hb : carries (calm_world "stopped") (ev_body body_START) "START").
  { apply carries_body with (b := body_START)
                            (d := {[ "action" := PyStr "START" ]});
      [reflexivity | reflexivity | reflexivity | discriminate
      | reflexivity | reflexivity]. }
  destruct (action_resolution (calm_world "stopped") _ _ _ _ Hf Hb eq_refl)
    as (R1 & R2 & _).
  destruct (action_resolution (calm_world "stopped") _ _ _ _ Hf Hq eq_refl)
    as (_ & R3 & _).
  split; [exact R1 |]. split; [now rewrite R2 | now rewrite R3].
Defined.

Lemma malformed_body_ignored_witness :
  resolve_action (calm_world "stopped") (ev_body "{action: start") = inr "" /\
  exists r,
    returned (calm_world "stopped") (ev_body "{action: start") PyNone = inr r.
Proof.
  destruct (malformed_body_ignored (calm_world "stopped")
              {[ "body" := PyStr "{action: start" ]} "{action: start"
              (Exn "JSONDecodeError" "Expecting value: line 1 column 1 (char 0)")
              PyNone) as [_ H]; [reflexivity | reflexivity |].
  destruct (H (PyStr "")) as (R & _ & E); [reflexivity | reflexivity |].
  split; [exact R | exact E].
Defined.

Lemma default_status_branch_witness :
  returned (calm_world "stopped") (ev_action (PyStr "status")) PyNone =
    inr (PyDict {[ "result" := PyStr "status"; "state" := PyStr "stopped" ]}) /\
  calls (history (calm_world "stopped") (ev_action (PyStr "status")) PyNone) =
    [ DescribeInstances [INSTANCE_ID]; PUBLISH "🛑 EC2 - STOPPED" ].
Proof.
  destruct (default_status_branch (calm_world "stopped")
              (ev_action (PyStr "status")) PyNone "status"
              (describe_response (PyStr "stopped")) "stopped")
    as (_ & R & C & _);
    [reflexivity | discriminate | discriminate | discriminate
    | reflexivity | reflexivity | reflexivity |].
  split; [exact R | exact C].
Defined.

Lemma notification_helper_contract_witness :
  returned (calm_world "stopped") (ev_action (PyStr "test")) PyNone =
    inr (PyDict {[ "result" := PyStr "test"; "sms_sent" := PyBool true ]}).
Proof.
  destruct (notification_helper_contract (calm_world "stopped")
              "hello" [] (ev_action (PyStr "test")) PyNone
              (calm_world_sns_contract "stopped") eq_refl)
    as (_ & b & Hb & R & _).
  rewrite R. cbn in Hb. injection Hb as <-. reflexivity.
Defined.

Lemma non_mapping_event_witness :
  resolve_action (calm_world "running") (PyList [PyStr "start"]) = inr "" /\
  returned (calm_world "running") (PyList [PyStr "start"]) PyNone =
    inr (PyDict {[ "result" := PyStr "status"; "state" := PyStr "running" ]}).
Proof.
  destruct (non_mapping_event (calm_world "running") (PyList [PyStr "start"])
              PyNone (describe_response (PyStr "running")) "running"
              eq_refl eq_refl eq_refl) as (_ & R & _ & V).
  split; [exact R | exact V].
Defined.

Lemma handler_boundary_witness :
  returned stormy_world (ev_action (PyStr "start")) PyNone =
    inr (error_result (Exn "WaiterError" "Max attempts exceeded")) /\
  last (calls (history stormy_world (ev_action (PyStr "start")) PyNone)) =
    Some (PUBLISH "❌ EC2 ERROR: Max attempts exceeded").
Proof.
  destruct (handler_boundary stormy_world (ev_action (PyStr "start")) PyNone)
    as (_ & _ & _ & _ & H).
  apply (H (WaiterWait "instance_running" [INSTANCE_ID] 10 12)
           (Exn "WaiterError" "Max attempts exceeded")).
  - vm_compute. tauto.
  - reflexivity.
Defined.

(** C1 as stated fails: a truthy action that is not a string makes
    [.lower()] raise outside the [try] statement. *)
Lemma handler_raises_on_non_string_action :
  returned (calm_world "stopped") (ev_action (PyInt 5)) PyNone =
    inl (Exn "AttributeError" "'int' object has no attribute 'lower'") /\
  ~ exists r, returned (calm_world "stopped") (ev_action (PyInt 5)) PyNone = inr r.
Proof.
  split; [reflexivity |]. intros [r H]. discriminate H.
Qed.

(** C7 as stated fails: an action that is none of [test], [start], [stop]
    but holds a lone surrogate makes the [print] before the [try] statement
    raise, and the status branch is never entered. *)
Lemma status_branch_needs_writable_action :
  resolve_action (calm_world "stopped") (ev_action (PyStr lone_surrogate)) =
    inr lone_surrogate /\
  lone_surrogate <> "test" /\ lone_surrogate <> "start" /\
  lone_surrogate <> "stop" /\
  run (calm_world "stopped") (ev_action (PyStr lone_surrogate)) PyNone =
    (inl (Exn "UnicodeEncodeError"
            ("'utf-8' codec can't encode character '\ud800' in position 17: "
             ++ "surrogates not allowed")), []) /\
  ~ exists state,
      returned (calm_world "stopped") (ev_action (PyStr lone_surrogate)) PyNone =
      inr (PyDict {[ "result" := PyStr "status"; "state" := state ]}).
Proof.
  split; [reflexivity |]. split; [discriminate |]. split; [discriminate |].
  split; [discriminate |]. split; [reflexivity |].
  intros [state H]. discriminate H.
Qed.

(** C9 as stated fails: starting a stopped instance takes five calls. *)
Lemma start_makes_five_calls :
  length (history (calm_world "stopped") (ev_action (PyStr "start")) PyNone) = 5%nat /\
  ~ (length (history (calm_world "stopped") (ev_action (PyStr "start")) PyNone) <= 2)%nat.
Proof.
  assert (E : length (history (calm_world "stopped")
                        (ev_action (PyStr "start")) PyNone) = 5%nat)
    by reflexivity.
  split; [exact E | rewrite E; lia].
Qed.

Example handler_raises_on_non_mapping_query :
  returned (calm_world "stopped") (ev_query_raw (PyStr "action=start")) PyNone =
    inl (Exn "AttributeError" "'str' object has no attribute 'get'").
Proof. reflexivity. Qed.

Example upper_case_start_dispatches :
  run (calm_world "running") (ev_action (PyStr "START")) PyNone =
  run (calm_world "running") (ev_action (PyStr "start")) PyNone.
Proof. reflexivity. Qed.

(** ** Further properties of the handler *)

(** Splits on the branch the dispatch takes. *)
Ltac branches action :=
  unfold dispatch;
  destruct (String.eqb_spec action "test");
    [| destruct (String.eqb_spec action "start");
       [| destruct (String.eqb_spec action "stop")]].

(** Computes the discriminator of the records in the goal. *)
Ltac tags :=
  repeat match goal with
    | |- context [result_tag ?r] =>
        let t := eval vm_compute in (result_tag r) in
        change (result_tag r) with t
    end.

Section Extras.

Variable w : World.

Local Abbreviation DESCRIBE := (DescribeInstances [INSTANCE_ID]).

(** X1: every call is addressed to the configured instance or topic. *)
Theorem calls_well_targeted event context :
  forallb well_targeted (calls (history w event context)) = true.
Proof.
  unfold history, run.
  run_cases w event action Hres Hw.
  - reflexivity.
  - branches action; exec w; reflexivity.
  - reflexivity.
Qed.

(** X2: the [test] action touches nothing but the topic and always answers
    with the test record. *)
Theorem test_action_is_notification_only event context :
  resolve_action w event = inr "test" ->
  count_calls is_compute (history w event context) = 0%nat /\
  returned_tag w event context = Some "test".
Proof.
  intros Hres. unfold returned_tag, returned, history, run.
  rewrite (lambda_handler_resolved w _ _ _ _ Hres eq_refl), dispatch_test.
  exec w. split; reflexivity.
Qed.

(** X3: commands are issued only under their own action, and at most one per
    invocation. *)
Theorem command_matches_action event context :
  (forall ids, In (StartInstances ids) (calls (history w event context)) ->
               resolve_action w event = inr "start") /\
  (forall ids, In (StopInstances ids) (calls (history w event context)) ->
               resolve_action w event = inr "stop") /\
  (forall name ids d m,
     In (WaiterWait name ids d m) (calls (history w event context)) ->
     (name = "instance_running" /\ resolve_action w event = inr "start") \/
     (name = "instance_stopped" /\ resolve_action w event = inr "stop")) /\
  (count_calls is_start (history w event context)
   + count_calls is_stop (history w event context) <= 1)%nat.
Proof.
  unfold history, run.
  run_cases w event action Hres Hw.
  - cbn [snd].
    split; [intros ids Hin; entries |].
    split; [intros ids Hin; entries |].
    split; [intros name ids d m Hin; entries | cbn; lia].
  - branches action; subst; exec w;
      (split; [intros ids Hin; entries; reflexivity |]);
      (split; [intros ids Hin; entries; reflexivity |]);
      (split; [intros name ids d m Hin; entries;
               match goal with
               | H : _ = WaiterWait _ _ _ _ |- _ =>
                   unfold WAIT in H; injection H as <- <- <- <-
               end; auto
              | cbn; lia]).
  - cbn [snd].
    split; [intros ids Hin; entries |].
    split; [intros ids Hin; entries |].
    split; [intros name ids d m Hin; entries | cbn; lia].
Qed.

(** X4: the start command is issued only after a describe call that returned
    a well-formed response reporting a state other than [running]. *)
Theorem start_requires_not_running event context ids :
  In (StartInstances ids) (calls (history w event context)) ->
  exists resp state,
    respond w [] DESCRIBE = inr resp /\
    instance_state resp = inr state /\
    py_eq_str state "running" = false.
Proof.
  unfold history, run.
  run_cases w event action Hres Hw.
  - cbn [snd].
    intros Hin; entries.
  - branches action; exec w; intros Hin; entries;
      do 2 eexists; (split; [reflexivity | split; eassumption]).
  - cbn [snd].
    intros Hin; entries.
Qed.

(** X5: the handler answers [started] exactly when its wait for
    [instance_running] returned, and [stopped] exactly when its wait for
    [instance_stopped] returned. *)
Theorem success_iff_wait_returned event context :
  (returned_tag w event context = Some "started" <->
   exists r, In (WaiterWait "instance_running" [INSTANCE_ID] 10 12, inr r)
                (history w event context)) /\
  (returned_tag w event context = Some "stopped" <->
   exists r, In (WaiterWait "instance_stopped" [INSTANCE_ID] 10 12, inr r)
                (history w event context)).
Proof.
  unfold returned_tag, returned, history, run.
  run_cases w event action Hres Hw.
  - cbn [fst snd].
    split; (split; [discriminate | intros [r Hin]; entries]).
  - branches action; exec w; tags;
      (split; (split; [intros H; try discriminate H; eexists; cbn; eauto 10
                      | intros [r Hin]; entries; reflexivity])).
  - cbn [fst snd].
    split; (split; [discriminate | intros [r Hin]; entries]).
Qed.

(** X6: once the log line is written, a describe response the handler cannot
    read the state from ends the [start] and the status path with the error
    record of that failure, after the describe call and the error
    notification only. *)
Theorem unreadable_describe_response event context action resp e :
  resolve_action w event = inr action ->
  action <> "test" -> action <> "stop" ->
  writable action = true ->
  respond w [] DESCRIBE = inr resp ->
  instance_state resp = inl e ->
  returned w event context = inr (error_result e) /\
  calls (history w event context) =
    [ DESCRIBE; PUBLISH ("❌ EC2 ERROR: " ++ exn_text e) ].
Proof.
  intros Hres Ht Hp Hw Hd Hs. unfold returned, history, run.
  rewrite (lambda_handler_resolved w _ _ _ _ Hres Hw).
  branches action; try contradiction; exec w; split; reflexivity.
Qed.

(** X7: on the status path, once the log line is written, a reported state
    that is not a string is answered with the error record of the failed
    [upper] call; no status notification is sent. *)
Theorem status_of_non_string_state event context action resp state :
  resolve_action w event = inr action ->
  action <> "test" -> action <> "start" -> action <> "stop" ->
  writable action = true ->
  respond w [] DESCRIBE = inr resp ->
  instance_state resp = inr state ->
  is_str state = false ->
  returned w event context = inr (error_result (AttributeError state "upper")) /\
  calls (history w event context) =
    [ DESCRIBE;
      PUBLISH ("❌ EC2 ERROR: " ++ exn_text (AttributeError state "upper")) ].
Proof.
  intros Hres Ht Hs Hp Hw Hd Hst Hty.
  assert (Hup : py_upper w state = inl (AttributeError state "upper"))
    by (destruct state; try discriminate Hty; reflexivity).
  unfold returned, history, run.
  rewrite (lambda_handler_resolved w _ _ _ _ Hres Hw).
  branches action; try contradiction; exec w;
    first [discriminate Hup | injection Hup as ->; split; reflexivity].
Qed.

(** X8: an invocation that returns has made a notification attempt as its
    last call. *)
Theorem last_call_is_notification event context r :
  returned w event context = inr r ->
  exists message,
    last (calls (history w event context)) = Some (PUBLISH message).
Proof.
  unfold returned, history, run.
  run_cases w event action Hres Hw.
  - discriminate.
  - branches action; exec w; intros _; eexists; reflexivity.
  - discriminate.
Qed.

(** X9: every resolved action whose log line is written ends on one of its
    own discriminators. *)
Theorem result_schema event context action :
  resolve_action w event = inr action ->
  writable action = true ->
  exists tag,
    returned_tag w event context = Some tag /\
    In tag (allowed_tags action).
Proof.
  intros Hres Hw. unfold returned_tag, returned, run, allowed_tags.
  rewrite (lambda_handler_resolved w _ _ _ _ Hres Hw). unfold dispatch.
  destruct (String.eqb action "test");
    [| destruct (String.eqb action "start");
       [| destruct (String.eqb action "stop")]];
    exec w; tags; eexists; (split; [reflexivity | cbn; tauto]).
Qed.

(** A branch that comes to its [return] never builds the error record. *)
Lemma dispatch_returns_no_error action h r h' :
  dispatch w action h = (inr r, h') -> result_tag r <> Some "error".
Proof.
  branches action; exec w; intros H; inversion H; subst; tags; discriminate.
Qed.

(** X10: once the log line is written, the error record is returned exactly
    when the body of the [try] statement raised. *)
Theorem error_iff_dispatch_raised event context action :
  resolve_action w event = inr action ->
  writable action = true ->
  returned_tag w event context = Some "error" <->
  exists e h', dispatch w action [] = (inl e, h').
Proof.
  intros Hres Hw. unfold returned_tag, returned, run.
  rewrite (lambda_handler_resolved w _ _ _ _ Hres Hw). unfold try_except.
  destruct (dispatch w action []) as [[e | r] h'] eqn:Hd.
  - rewrite on_error_run. cbn [fst]. tags. split; eauto.
  - cbn [fst]. split.
    + intros H. now apply dispatch_returns_no_error in Hd.
    + intros (e & h'' & H). discriminate H.
Qed.

(** X11: a publish call that returned is still reported as not sent when its
    response has no [MessageId]: the helper reads the id for its log line
    inside the [try] statement. *)
Theorem publish_without_message_id message h response e :
  respond w h (PUBLISH message) = inr response ->
  py_subscript_key response "MessageId" = inl e ->
  publish_sms w message h =
    (inr false, (h ++ [(PUBLISH message, inr response)])%list) /\
  (forall event context,
     h = [] ->
     message = "TEST: EC2 Monitor - Instance " ++ INSTANCE_ID ->
     resolve_action w event = inr "test" ->
     returned w event context =
       inr (PyDict {[ "result" := PyStr "test"; "sms_sent" := PyBool false ]})).
Proof.
  intros Hp Hk.
  assert (Hs : sms_sent w h message = false)
    by (unfold sms_sent; now rewrite Hp, Hk).
  split.
  - now rewrite publish_sms_run, Hs, Hp.
  - intros event context -> -> Hres. unfold returned, run.
    rewrite (lambda_handler_resolved w _ _ _ _ Hres eq_refl), dispatch_test.
    exec w. now rewrite Hs.
Qed.

(** X12: once a describe, start, stop or wait call has raised, the handler
    makes no further call but the error notification, and answers with the
    error record of that exception. *)
Theorem fail_fast event context c e rest :
  first_failure (history w event context) = Some (c, e, rest) ->
  calls rest = [ PUBLISH ("❌ EC2 ERROR: " ++ exn_text e) ] /\
  returned w event context = inr (error_result e).
Proof.
  unfold returned, history, run.
  run_cases w event action Hres Hw.
  - discriminate.
  - branches action; exec w; intros H; cbn in H;
      first [discriminate H | injection H as <- <- <-; split; reflexivity].
  - discriminate.
Qed.

(** X14: a body that cannot be decoded, whatever its type, or that decodes to
    something other than a mapping, is ignored. *)
Theorem body_without_object_ignored fields body context :
  fields !! "body" = Some body ->
  (forall d, py_json_loads w body <> inr (PyDict d)) ->
  forall h,
    lambda_handler w (PyDict fields) context h =
    lambda_handler w (PyDict (delete "body" fields)) context h.
Proof.
  intros Hb Hj h.
  assert (Hx : extract_action w (PyDict fields) =
               extract_action w (PyDict (delete "body" fields))).
  { rewrite !extract_action_unfold.
    rewrite !lookup_delete_ne by discriminate. rewrite lookup_delete_eq, Hb.
    match goal with |- bind_exn ?x _ = _ => destruct x as [e0 | action] end;
      [reflexivity |].
    cbn [bind_exn py_subscript_key default from_option id truthy].
    rewrite Hb, andb_false_r.
    destruct (_ && _); [| reflexivity]. cbn [bind_exn].
    destruct (py_json_loads w body) as [e | parsed] eqn:Hp; [reflexivity |].
    destruct parsed as [| | | | | | d]; try reflexivity.
    now destruct (Hj d). }
  unfold lambda_handler, resolve_action. now rewrite Hx.
Qed.

(** *** Which events make the extraction raise *)

Lemma py_lower_raises v e :
  py_lower w v = inl e -> is_str v = false /\ e = AttributeError v "lower".
Proof.
  destruct v; cbn [py_lower is_str]; intros H; try discriminate H;
    injection H as <-; split; reflexivity.
Qed.

Lemma py_lower_non_str v :
  is_str v = false -> py_lower w v = inl (AttributeError v "lower").
Proof. destruct v; intros H; try discriminate H; reflexivity. Qed.

Lemma lower_or_truthy v :
  truthy v = true -> py_lower w (py_or v (PyStr "")) = py_lower w v.
Proof. intros H. unfold py_or. now rewrite H. Qed.

Lemma lower_or_falsy v :
  truthy v = false -> py_lower w (py_or v (PyStr "")) = inr "".
Proof. intros H. unfold py_or. now rewrite H. Qed.

Lemma truthy_lookup (m : gmap string pyval) k dflt :
  truthy dflt = false ->
  truthy (default dflt (m !! k)) = true ->
  m !! k = Some (default dflt (m !! k)).
Proof.
  intros Hd Ht. destruct (m !! k); [reflexivity |].
  cbn [default from_option id] in Ht. congruence.
Qed.

Lemma extract_action_steps fields :
  extract_action w (PyDict fields) =
  bind_exn (field_or_query fields)
    (fun action =>
       if negb (truthy action) && truthy (default PyNone (fields !! "body"))
       then
         match bind_exn (py_subscript_key (PyDict fields) "body")
                 (fun raw => bind_exn (py_json_loads w raw)
                    (fun parsed => py_get parsed "action" (PyStr ""))) with
         | inr a => inr a
         | inl _ => inr action
         end
       else inr action).
Proof. reflexivity. Qed.

Lemma field_or_query_raises fields e :
  field_or_query fields = inl e ->
  truthy (default PyNone (fields !! "action")) = false /\
  exists qv,
    fields !! "queryStringParameters" = Some qv /\
    truthy qv = true /\ is_dict qv = false /\ e = AttributeError qv "get".
Proof.
  unfold field_or_query.
  destruct (truthy (default PyNone (fields !! "action"))); [discriminate |].
  intros H. split; [reflexivity |]. unfold py_or in H.
  destruct (truthy (default PyNone (fields !! "queryStringParameters")))
    eqn:Hq; [| discriminate H].
  exists (default PyNone (fields !! "queryStringParameters")).
  split; [now apply truthy_lookup |]. split; [exact Hq |].
  destruct (default PyNone (fields !! "queryStringParameters"));
    try discriminate H; injection H as <-; split; reflexivity.
Qed.

Lemma field_or_query_truthy fields v :
  field_or_query fields = inr v ->
  truthy v = true ->
  fields !! "action" = Some v \/
  (truthy (default PyNone (fields !! "action")) = false /\
   exists q, fields !! "queryStringParameters" = Some (PyDict q) /\
             q !! "action" = Some v).
Proof.
  unfold field_or_query.
  destruct (truthy (default PyNone (fields !! "action"))) eqn:Ht.
  - intros H _. injection H as <-. left. now apply truthy_lookup.
  - intros H Hv. right. split; [reflexivity |]. unfold py_or in H.
    destruct (truthy (default PyNone (fields !! "queryStringParameters")))
      eqn:Hq.
    + pose proof (truthy_lookup fields "queryStringParameters" PyNone
                    eq_refl Hq) as Hl.
      destruct (default PyNone (fields !! "queryStringParameters"))
        as [| | | | | | q]; try discriminate H.
      cbn [py_get] in H. injection H as <-.
      exists q. split; [exact Hl |]. now apply truthy_lookup.
    + cbn [py_get] in H. rewrite lookup_empty in H.
      injection H as <-. discriminate Hv.
Qed.

Lemma field_or_query_falsy fields v :
  field_or_query fields = inr v ->
  truthy v = false ->
  truthy (default PyNone (fields !! "action")) = false /\
  no_query_action fields = true.
Proof.
  unfold field_or_query, no_query_action.
  destruct (truthy (default PyNone (fields !! "action"))) eqn:Ht.
  - intros H Hv. injection H as <-. congruence.
  - intros H Hv. split; [reflexivity |]. unfold py_or in H.
    destruct (fields !! "queryStringParameters") as [qv |];
      cbn [default from_option id] in H; [| reflexivity].
    destruct (truthy qv) eqn:Hq.
    + destruct qv as [| | | | | | q]; try discriminate H.
      cbn [py_get] in H. injection H as <-. cbv beta iota. now rewrite Hv.
    + destruct qv as [| | | | | | q]; cbv beta iota; try reflexivity.
      cbn [truthy] in Hq. apply negb_false_iff, bool_decide_eq_true in Hq.
      subst q. now rewrite lookup_empty.
Qed.

Lemma resolve_raises_ill_typed event e :
  resolve_action w event = inl e -> ill_typed w event e.
Proof.
  destruct event as [| | | | | | fields]; try discriminate.
  unfold resolve_action. rewrite extract_action_steps.
  destruct (field_or_query fields) as [e0 | v] eqn:HF; cbn [bind_exn].
  - intros H. injection H as <-.
    destruct (field_or_query_raises _ _ HF) as (Ht & qv & Hq & Hqt & Hqd & ->).
    now apply ill_query.
  - destruct (truthy v) eqn:Hv; cbn [negb andb bind_exn].
    + rewrite (lower_or_truthy _ Hv). intros H.
      apply py_lower_raises in H as [Hs ->].
      destruct (field_or_query_truthy _ _ HF Hv) as [Hf | (Ht & q & Hq & Hqa)].
      * now apply ill_field.
      * now apply ill_query_action with (q := q).
    + destruct (field_or_query_falsy _ _ HF Hv) as [Ht Hnq].
      destruct (truthy (default PyNone (fields !! "body"))) eqn:Hb;
        [| cbn [bind_exn]; rewrite (lower_or_falsy _ Hv); discriminate].
      pose proof (truthy_lookup fields "body" PyNone eq_refl Hb) as Hl.
      cbn [py_subscript_key]. rewrite Hl. cbn [bind_exn].
      destruct (py_json_loads w (default PyNone (fields !! "body")))
        as [e1 | parsed] eqn:Hj; cbn [bind_exn];
        [rewrite (lower_or_falsy _ Hv); discriminate |].
      destruct parsed as [| | | | | | d]; cbn [py_get bind_exn];
        try (rewrite (lower_or_falsy _ Hv); discriminate).
      destruct (truthy (default (PyStr "") (d !! "action"))) eqn:Ha;
        [| rewrite (lower_or_falsy _ Ha); discriminate].
      rewrite (lower_or_truthy _ Ha). intros H.
      apply py_lower_raises in H as [Hs ->].
      eapply ill_body_action; eauto. now apply truthy_lookup.
Qed.

Lemma ill_typed_resolve_raises event e :
  ill_typed w event e -> resolve_action w event = inl e.
Proof.
  intros [fields v Hf Hv Hs | fields qv Ht Hq Hqt Hqd
         | fields q v Ht Hq Hqa Hv Hs
         | fields body d v Ht Hnq Hb Hbt Hj Hd Hv Hs];
    unfold resolve_action; rewrite extract_action_steps; unfold field_or_query.
  - rewrite Hf. cbn [default from_option id]. rewrite Hv.
    cbn [bind_exn]. rewrite Hv. cbn [negb andb bind_exn].
    rewrite (lower_or_truthy _ Hv). now apply py_lower_non_str.
  - rewrite Ht, Hq. cbn [default from_option id]. unfold py_or. rewrite Hqt.
    destruct qv; try discriminate Hqd; reflexivity.
  - rewrite Ht, Hq. cbn [default from_option id].
    assert (Hqt : truthy (PyDict q) = true).
    { cbn [truthy]. apply negb_true_iff, bool_decide_eq_false.
      intros ->. now rewrite lookup_empty in Hqa. }
    unfold py_or at 1. rewrite Hqt. cbn [py_get]. rewrite Hqa.
    cbn [default from_option id bind_exn]. rewrite Hv.
    cbn [negb andb bind_exn].
    rewrite (lower_or_truthy _ Hv). now apply py_lower_non_str.
  - rewrite Ht. destruct (query_step_falsy fields Hnq) as (x & Hx & Hxf).
    rewrite Hx, Hb. cbn [bind_exn default from_option id]. rewrite Hxf, Hbt.
    cbn [negb andb py_subscript_key]. rewrite Hb. cbn [bind_exn].
    rewrite Hj. cbn [bind_exn py_get]. rewrite Hd.
    cbn [default from_option id bind_exn].
    rewrite (lower_or_truthy _ Hv). now apply py_lower_non_str.
Qed.

Lemma py_print_returns action :
  py_print ("Action received: " ++ action) = inr tt -> writable action = true.
Proof.
  rewrite <- writable_log_line. unfold py_print, writable.
  now destruct (encode_error _).
Qed.

(** X15: the handler raises [e] past its boundary exactly when the event is
    ill-typed and [e] is the exception of the failing [get] or [lower], or
    the action resolves and [e] is the exception of the [print] that cannot
    write its log line. *)
Theorem handler_raises_iff event context e :
  returned w event context = inl e <->
  ill_typed w event e \/
  (exists action,
     resolve_action w event = inr action /\
     py_print ("Action received: " ++ action) = inl e).
Proof.
  unfold returned, run. split.
  - intros H.
    destruct (resolve_action w event) as [e0 | action] eqn:Hres.
    + left. apply resolve_raises_ill_typed.
      rewrite (lambda_handler_unresolved w _ _ _ _ Hres) in H.
      cbn [fst] in H. congruence.
    + right. exists action. split; [reflexivity |].
      destruct (py_print ("Action received: " ++ action)) as [e1 | []] eqn:Hp.
      * rewrite (lambda_handler_unwritable w _ _ _ _ _ Hres Hp) in H.
        cbn [fst] in H. now injection H as ->.
      * rewrite (lambda_handler_resolved w _ _ _ _ Hres
                   (py_print_returns _ Hp)) in H.
        destruct (try_dispatch_returns w action []) as (r & h' & E).
        rewrite E in H. discriminate H.
  - intros [H | (action & Hres & Hp)].
    + apply ill_typed_resolve_raises in H.
      now rewrite (lambda_handler_unresolved w _ _ _ _ H).
    + now rewrite (lambda_handler_unwritable w _ _ _ _ _ Hres Hp).
Qed.

(** X16: whatever escapes the handler is an [AttributeError] of the
    extraction or the [UnicodeEncodeError] of the log line, raised on a
    mapping event before any call has been made. *)
Theorem escaping_exception_classes event context e :
  returned w event context = inl e ->
  (exn_class e = "AttributeError" \/ exn_class e = "UnicodeEncodeError") /\
  history w event context = [] /\
  is_dict event = true.
Proof.
  unfold returned, history, run. intros H.
  destruct (resolve_action w event) as [e0 | action] eqn:Hres.
  - rewrite (lambda_handler_unresolved w _ _ _ _ Hres) in *.
    cbn [fst] in H. injection H as ->.
    apply resolve_raises_ill_typed in Hres.
    destruct Hres; repeat split; now left.
  - destruct (py_print ("Action received: " ++ action)) as [e1 | []] eqn:Hp.
    + rewrite (lambda_handler_unwritable w _ _ _ _ _ Hres Hp) in *.
      cbn [fst] in H. injection H as ->.
      split; [right; apply (py_print_raises _ _ Hp) |].
      split; [reflexivity |].
      destruct (is_dict event) eqn:Hd; [reflexivity |].
      rewrite (resolve_action_non_mapping w event Hd) in Hres.
      injection Hres as <-. discriminate Hp.
    + rewrite (lambda_handler_resolved w _ _ _ _ Hres
                 (py_print_returns _ Hp)) in H.
      destruct (try_dispatch_returns w action []) as (r & h' & E).
      rewrite E in H. discriminate H.
Qed.

(** X17: a [status] record carries the state string the describe call
    reported. *)
Theorem status_record_reports_state event context r :
  returned w event context = inr r ->
  result_tag r = Some "status" ->
  exists resp s,
    respond w [] DESCRIBE = inr resp /\
    instance_state resp = inr (PyStr s) /\
    r = PyDict {[ "result" := PyStr "status"; "state" := PyStr s ]}.
Proof.
  unfold returned, run.
  run_cases w event action Hres Hw.
  - discriminate.
  - branches action; exec w; intros Hr; injection Hr as <-; intros Htag;
      try (vm_compute in Htag; discriminate Htag).
    match goal with
    | H : py_upper w ?state = inr _ |- _ =>
        destruct state; try discriminate H
    end.
    do 2 eexists. split; [reflexivity | split; [eassumption | reflexivity]].
  - discriminate.
Qed.

End Extras.

(** *** Closed instances of the further properties *)

Lemma test_action_is_notification_only_witness :
  count_calls is_compute
    (history stormy_world (ev_action (PyStr "TEST")) PyNone) = 0%nat /\
  returned_tag stormy_world (ev_action (PyStr "TEST")) PyNone = Some "test".
Proof.
  apply (test_action_is_notification_only stormy_world). reflexivity.
Defined.

Lemma command_matches_action_witness :
  resolve_action (calm_world "stopped") (ev_query (PyStr "start")) =
    inr "start".
Proof.
  destruct (command_matches_action (calm_world "stopped")
              (ev_query (PyStr "start")) PyNone) as (H & _).
  apply (H [INSTANCE_ID]). vm_compute. tauto.
Defined.

Lemma start_requires_not_running_witness :
  exists resp state,
    respond (calm_world "stopped") [] (DescribeInstances [INSTANCE_ID]) =
      inr resp /\
    instance_state resp = inr state /\
    py_eq_str state "running" = false.
Proof.
  apply (start_requires_not_running (calm_world "stopped")
           (ev_action (PyStr "start")) PyNone [INSTANCE_ID]).
  vm_compute. tauto.
Defined.

Lemma success_iff_wait_returned_witness :
  returned_tag (calm_world "running") (ev_action (PyStr "stop")) PyNone =
    Some "stopped".
Proof.
  destruct (success_iff_wait_returned (calm_world "running")
              (ev_action (PyStr "stop")) PyNone) as [_ [_ H]].
  apply H. exists (PyDict ∅). vm_compute. tauto.
Defined.

Lemma unreadable_describe_response_witness :
  returned
    (scripted_world "null" PyNone
       (inr (PyDict {[ "Reservations" := PyList [] ]}))
       (inr (PyDict ∅)) (inr (PyDict ∅)))
    (ev_action (PyStr "start")) PyNone =
  inr (error_result (IndexError "list")).
Proof.
  apply (unreadable_describe_response
           (scripted_world "null" PyNone
              (inr (PyDict {[ "Reservations" := PyList [] ]}))
              (inr (PyDict ∅)) (inr (PyDict ∅)))
           (ev_action (PyStr "start")) PyNone "start"
           (PyDict {[ "Reservations" := PyList [] ]}));
    first [reflexivity | discriminate].
Defined.

Lemma status_of_non_string_state_witness :
  returned
    (scripted_world "null" PyNone (inr (describe_response PyNone))
       (inr (PyDict ∅)) (inr (PyDict ∅)))
    PyNone PyNone =
  inr (error_result (AttributeError PyNone "upper")).
Proof.
  apply (status_of_non_string_state
           (scripted_world "null" PyNone (inr (describe_response PyNone))
              (inr (PyDict ∅)) (inr (PyDict ∅)))
           PyNone PyNone "" (describe_response PyNone) PyNone);
    first [reflexivity | discriminate].
Defined.

Lemma last_call_is_notification_witness :
  exists message,
    last (calls (history stormy_world (ev_action (PyStr "start")) PyNone)) =
      Some (PUBLISH message).
Proof.
  apply (last_call_is_notification stormy_world (ev_action (PyStr "start"))
           PyNone (error_result (Exn "WaiterError" "Max attempts exceeded"))).
  reflexivity.
Defined.

Lemma result_schema_witness :
  exists tag,
    returned_tag stormy_world (ev_action (PyStr "stop")) PyNone = Some tag /\
    In tag ["stopped"; "error"].
Proof.
  apply (result_schema stormy_world (ev_action (PyStr "stop")) PyNone "stop");
    reflexivity.
Defined.

Lemma error_iff_dispatch_raised_witness :
  returned_tag stormy_world (ev_action (PyStr "stop")) PyNone = Some "error".
Proof.
  apply (error_iff_dispatch_raised stormy_world (ev_action (PyStr "stop"))
           PyNone "stop"); [reflexivity | reflexivity |].
  do 2 eexists. vm_compute. reflexivity.
Defined.

Lemma publish_without_message_id_witness :
  returned
    (scripted_world "null" PyNone (inr PyNone) (inr (PyDict ∅)) (inr PyNone))
    (ev_action (PyStr "test")) PyNone =
  inr (PyDict {[ "result" := PyStr "test"; "sms_sent" := PyBool false ]}).
Proof.
  destruct (publish_without_message_id
              (scripted_world "null" PyNone (inr PyNone) (inr (PyDict ∅))
                 (inr PyNone))
              ("TEST: EC2 Monitor - Instance " ++ INSTANCE_ID) []
              (PyDict ∅) (KeyError "MessageId")) as [_ H];
    [reflexivity | reflexivity |].
  apply H; reflexivity.
Defined.

Lemma fail_fast_witness :
  returned stormy_world (ev_action (PyStr "start")) PyNone =
    inr (error_result (Exn "WaiterError" "Max attempts exceeded")).
Proof.
  eapply (fail_fast stormy_world (ev_action (PyStr "start")) PyNone).
  vm_compute. reflexivity.
Defined.

Lemma body_without_object_ignored_witness :
  lambda_handler
    (scripted_world "[1]" (PyList [PyInt 1])
       (inr (describe_response (PyStr "stopped")))
       (inr (PyDict ∅)) (inr PyNone))
    (ev_body "[1]") PyNone [] =
  lambda_handler
    (scripted_world "[1]" (PyList [PyInt 1])
       (inr (describe_response (PyStr "stopped")))
       (inr (PyDict ∅)) (inr PyNone))
    (PyDict (delete "body" {[ "body" := PyStr "[1]" ]})) PyNone [].
Proof.
  apply (body_without_object_ignored
           (scripted_world "[1]" (PyList [PyInt 1])
              (inr (describe_response (PyStr "stopped")))
              (inr (PyDict ∅)) (inr PyNone))
           {[ "body" := PyStr "[1]" ]} (PyStr "[1]") PyNone).
  - reflexivity.
  - intros d H. vm_compute in H. discriminate H.
Defined.

Lemma handler_raises_iff_witness :
  returned
    (scripted_world body_five (PyDict {[ "action" := PyInt 5 ]})
       (inr PyNone) (inr PyNone) (inr PyNone))
    (ev_body body_five) PyNone =
    inl (AttributeError (PyInt 5) "lower") /\
  returned (calm_world "stopped") (ev_action (PyStr lone_surrogate)) PyNone =
    inl (UnicodeEncodeError 17 55296 1).
Proof.
  split.
  - apply (handler_raises_iff
             (scripted_world body_five (PyDict {[ "action" := PyInt 5 ]})
                (inr PyNone) (inr PyNone) (inr PyNone))).
    left.
    apply ill_body_action
      with (body := PyStr body_five) (d := {[ "action" := PyInt 5 ]});
      reflexivity.
  - apply (handler_raises_iff (calm_world "stopped")).
    right. exists lone_surrogate. split; reflexivity.
Defined.

Lemma escaping_exception_classes_witness :
  (exn_class (UnicodeEncodeError 17 55296 1) = "AttributeError" \/
   exn_class (UnicodeEncodeError 17 55296 1) = "UnicodeEncodeError") /\
  history (calm_world "stopped") (ev_action (PyStr lone_surrogate)) PyNone
    = [] /\
  is_dict (ev_action (PyStr lone_surrogate)) = true.
Proof.
  apply (escaping_exception_classes (calm_world "stopped")
           (ev_action (PyStr lone_surrogate)) PyNone).
  reflexivity.
Defined.

Lemma status_record_reports_state_witness :
  exists resp s,
    respond (calm_world "pending") [] (DescribeInstances [INSTANCE_ID]) =
      inr resp /\
    instance_state resp = inr (PyStr s) /\
    PyDict {[ "result" := PyStr "status"; "state" := PyStr "pending" ]} =
    PyDict {[ "result" := PyStr "status"; "state" := PyStr s ]}.
Proof.
  apply (status_record_reports_state (calm_world "pending")
           (PyList []) PyNone); reflexivity.
Defined.
